(** * Shadows of the Knight, episode 2: a shallow embedding

    The program under study is the single translation unit
    [shadows_of_the_knight_ep_2.cpp].  It reads a building, a turn budget
    and a starting position from an input stream, then runs a loop that
    reads one feedback word per turn and prints the next jump.

    Conventions of the embedding:
    - a C++ [int] is a [Z]; the one arithmetic update of the program
      ([--TurnsLeft]) has its 32-bit wrap-around written out;
    - a thrown [std::runtime_error] is a value of type [exception]; code
      that may throw returns a [result].  Nothing in the program catches,
      and the constructors are [noexcept], so every throw ends the process
      through [std::terminate]: an [inl e] returned by [main] stands for
      that abnormal end, with [e] the exception that caused it;
    - code that reads [std::istream&] or writes [std::ostream&] runs in the
      state-and-exception monad [Eff]; a throw keeps the state reached;
    - [std::istream] is an interface ([IStream]); every theorem is proved
      for all its implementations, and [istream] is a character-level
      implementation used to run the program on concrete input. *)

From Stdlib Require Import ZArith String Ascii List Lia Bool DecimalString.
From Stdlib Require Import DecimalPos DecimalZ.
From Equations Require Import Equations.
Import ListNotations.

Local Open Scope string_scope.
Local Open Scope Z_scope.

(** ** Machine integers *)

Definition INT_MIN : Z := -2147483648.
Definition INT_MAX : Z := 2147483647.

Definition int_range (z : Z) : Prop := INT_MIN <= z <= INT_MAX.

(** Two's complement reduction of a mathematical integer to 32 bits. *)
Definition int_wrap (z : Z) : Z := (z + 2 ^ 31) mod 2 ^ 32 - 2 ^ 31.

(** ** COMMON TYPES *)

Definition String : Type := string.

(** [operator<<] into a [std::stringstream] or [std::ostream]. *)
Class Insertable (T : Type) : Type := insert : T -> String.

(** Decimal text of an [int], with a leading minus sign when negative. *)
#[export] Instance Insertable_int : Insertable Z :=
  fun z => NilZero.string_of_int (Z.to_int z).

(** [std::endl] inserts a line feed (and flushes). *)
Definition endl : String := String.String (ascii_of_nat 10) EmptyString.

(** ** Exceptions *)

Inductive exception : Type :=
| runtime_error (what : String).

Definition what (e : exception) : String :=
  match e with runtime_error m => m end.

Definition result (A : Type) : Type := (exception + A)%type.

Abbreviation throw e := (inl e) (only parsing).
Abbreviation ok a := (inr a) (only parsing).

Definition result_bind {A B : Type} (m : result A) (k : A -> result B)
  : result B :=
  match m with
  | inl e => inl e
  | inr a => k a
  end.

Declare Scope result_scope.
Delimit Scope result_scope with result.
Notation "x <- m ;; k" := (result_bind m (fun x => k))
  (at level 61, m at next level, right associativity) : result_scope.

Definition succeeded {A : Type} (r : result A) : bool :=
  match r with inl _ => false | inr _ => true end.

(** ** INPUT UTILS *)

Definition is_empty (s : String) : bool :=
  match s with EmptyString => true | _ => false end.

(** The text built by [CheckArgument] before it throws. *)
Definition formattedMessage {T : Type} `{Insertable T}
  (argument : T) (message : String) : String :=
  (if negb (is_empty message) then message ++ ": " else "")
  ++ "argument '" ++ insert argument ++ "' is incorrect".

Definition CheckArgument {T : Type} `{Insertable T}
  (argument : T) (pred : T -> bool) (message : String) : result T :=
  if negb (pred argument)
  then throw (runtime_error (formattedMessage argument message))
  else ok argument.

(** ** MATH UTILS *)

Record Point : Type := mkPoint { X : Z; Y : Z }.

(** ** GAME ENTITIES *)

Definition MIN_WIDTH : Z := 1.
Definition MAX_WIDTH : Z := 10000.
Definition MIN_HEIGHT : Z := 5.
Definition MAX_HEIGHT : Z := 10000.

Record Building : Type := mkBuilding { Width : Z; Height : Z }.

(** The constructor [Building(int width, int height)]: the members are
    initialised in declaration order, [Width] first. *)
Definition new_Building (width height : Z) : result Building :=
  (w <- CheckArgument width
          (fun w => (w >=? MIN_WIDTH) && (w <=? MAX_WIDTH)) "Building width" ;;
   h <- CheckArgument height
          (fun h => (h >=? MIN_HEIGHT) && (h <=? MAX_HEIGHT)) "Building height" ;;
   ok (mkBuilding w h))%result.

Definition GetWidth (self : Building) : Z := Width self.
Definition GetHeight (self : Building) : Z := Height self.

Record Batman : Type := mkBatman { Position : Point }.

(** The constructor [Batman(int x, int y)]: the braced initialiser of
    [Position] evaluates the check of [x] before the check of [y]. *)
Definition new_Batman (x y : Z) : result Batman :=
  (x0 <- CheckArgument x
           (fun x0 => (x0 >=? 0) && (x0 <? MAX_WIDTH)) "Batman x0" ;;
   y0 <- CheckArgument y
           (fun y0 => (y0 >=? 0) && (y0 <? MAX_HEIGHT)) "Batman y0" ;;
   ok (mkBatman (mkPoint x0 y0)))%result.

Definition GetPosition (self : Batman) : Point := Position self.

(** ** STRATEGY *)

(** The abstract class [IStrategy].  [MakeDecision] is a non-const member
    function: it receives the object and returns it, so that an
    implementation with data members could update them. *)
Class IStrategy (T : Type) : Type :=
  MakeDecision : T -> String -> Point * T.

(** [SimpleStrategy] declares no data member. *)
Inductive SimpleStrategy : Type := mkSimpleStrategy.

#[export] Instance SimpleStrategy_IStrategy : IStrategy SimpleStrategy :=
  fun self _ => (mkPoint 0 0, self).

(** [CreateStrategy] always allocates a [SimpleStrategy]; the
    [Holder<IStrategy>] it returns dispatches to the instance above. *)
Definition CreateStrategy : SimpleStrategy := mkSimpleStrategy.

(** ** Streams and effects *)

(** What the program asks of [std::istream]: formatted extraction of an
    [int] and of a [std::string].  Each returns the value left in the
    target variable and the stream after the call. *)
Class IStream (S : Type) : Type := {
  extract_int : S -> Z * S;
  extract_String : S -> String * S
}.

(** State and exceptions: a computation over a state [St] yields a value or
    a thrown exception, together with the state reached. *)
Definition Eff (St A : Type) : Type := St -> result A * St.

Definition ret {St A : Type} (a : A) : Eff St A := fun s => (ok a, s).

Definition lift {St A : Type} (r : result A) : Eff St A := fun s => (r, s).

Definition bind {St A B : Type} (m : Eff St A) (k : A -> Eff St B)
  : Eff St B :=
  fun s =>
    match m s with
    | (inl e, s') => (inl e, s')
    | (inr a, s') => k a s'
    end.

Declare Scope eff_scope.
Delimit Scope eff_scope with eff.
Notation "x <- m ;; k" := (bind m (fun x => k))
  (at level 61, m at next level, right associativity) : eff_scope.
Notation "m ;; k" := (bind m (fun _ => k))
  (at level 61, right associativity) : eff_scope.

Definition STOP_BELOW_TURNS : Z := 1.
Definition MIN_INPUT_TURNS : Z := 2.
Definition MAX_INPUT_TURNS : Z := 100.

Record Game : Type := mkGame {
  House : Building;
  TurnsLeft : Z;
  Player : Batman;
  Strategy : SimpleStrategy
}.

Definition IsRunning (self : Game) : bool :=
  TurnsLeft self >=? STOP_BELOW_TURNS.

(** The message of the exception thrown by [BeforeTurn]. *)
Definition not_running : exception :=
  runtime_error "The game is not running: no turns left".

Section Program.

Context {S : Type} `{IStream S}.

(** [Read<int>]: [T result; input >> result; return result;]. *)
Definition Read_int : Eff S Z :=
  fun input => let (r, input') := extract_int input in (ok r, input').

Definition ReadBuilding : Eff S Building :=
  (w <- Read_int ;;
   h <- Read_int ;;
   lift (new_Building w h))%eff.

Definition ReadTurns : Eff S Z :=
  (turnsLeft <- Read_int ;;
   lift (CheckArgument turnsLeft
           (fun turns => (turns >=? MIN_INPUT_TURNS)
                         && (turns <=? MAX_INPUT_TURNS)) "Turns left"))%eff.

Definition ReadBatman : Eff S Batman :=
  (x <- Read_int ;;
   y <- Read_int ;;
   lift (new_Batman x y))%eff.

(** The constructor [Game(std::istream&)]: members are initialised in
    declaration order [House], [TurnsLeft], [Player], [Strategy]. *)
Definition new_Game : Eff S Game :=
  (house <- ReadBuilding ;;
   turnsLeft <- ReadTurns ;;
   player <- ReadBatman ;;
   ret (mkGame house turnsLeft player CreateStrategy))%eff.

(** The state a member function of [Game] works on: the object itself and
    the two streams passed to [NextTurn] by reference. *)
Record Process : Type := mkProcess {
  game : Game;
  cin : S;
  cout : String
}.

(** [SimpleStrategy::MakeDecision] as the call that [OnTurn] makes.  The
    body of a member function can reach more than its parameter: written
    as a computation over the whole process, it could read the game or the
    pending input, or write to the output.  The body of the source is
    [return {0, 0};]: it reads nothing and writes nothing. *)
Definition SimpleStrategy_MakeDecision (_bombDirection : String)
  : Eff Process Point :=
  ret (mkPoint 0 0).

Definition BeforeTurn : Eff Process unit :=
  fun p =>
    if negb (IsRunning (game p))
    then (throw not_running, p)
    else (ok tt, p).

Definition OnTurn : Eff Process unit :=
  fun p =>
    let (bombDir, input') := extract_String (cin p) in
    let (jumpTo, strategy') := MakeDecision (Strategy (game p)) bombDir in
    (ok tt,
     mkProcess
       (mkGame (House (game p)) (TurnsLeft (game p)) (Player (game p))
               strategy')
       input'
       (cout p ++ insert (X jumpTo) ++ " " ++ insert (Y jumpTo) ++ endl)).

(** [--TurnsLeft] on a 32-bit [int]. *)
Definition AfterTurn : Eff Process unit :=
  fun p =>
    (ok tt,
     mkProcess
       (mkGame (House (game p)) (int_wrap (TurnsLeft (game p) - 1))
               (Player (game p)) (Strategy (game p)))
       (cin p) (cout p)).

Definition NextTurn : Eff Process unit :=
  (BeforeTurn ;; OnTurn ;; AfterTurn)%eff.

End Program.

(** ** The turn loop *)

(** Reduction to 32 bits never increases a non-negative integer, and is the
    identity on the range of [int]. *)
Lemma int_wrap_le (z : Z) : 0 <= z -> int_wrap z <= z.
Proof.
  intros Hz. unfold int_wrap.
  assert (Hm : (z + 2 ^ 31) mod 2 ^ 32 <= z + 2 ^ 31)
    by (apply Z.mod_le; lia).
  lia.
Qed.

Lemma int_wrap_id (z : Z) : int_range z -> int_wrap z = z.
Proof.
  unfold int_range, INT_MIN, INT_MAX, int_wrap. intros Hz.
  rewrite Z.mod_small; lia.
Qed.

Section Loop.

Context {S : Type} `{IStream S}.

(** A turn requested on a running game does not throw, and leaves the
    counter one lower (modulo 32-bit reduction). *)
Lemma NextTurn_running (p : Process) :
  IsRunning (game p) = true ->
  exists p',
    NextTurn p = (ok tt, p')
    /\ TurnsLeft (game p') = int_wrap (TurnsLeft (game p) - 1).
Proof.
  intros Hrun. unfold NextTurn, bind, BeforeTurn. rewrite Hrun. cbn.
  unfold OnTurn.
  destruct (extract_String (cin p)) as [bombDir input'].
  destruct (MakeDecision (Strategy (game p)) bombDir) as [jumpTo strategy'].
  cbn. eexists. split; reflexivity.
Qed.

Lemma NextTurn_measure (p p' : Process) (r : result unit) :
  IsRunning (game p) = true ->
  NextTurn p = (r, p') ->
  (Z.to_nat (TurnsLeft (game p')) < Z.to_nat (TurnsLeft (game p)))%nat.
Proof.
  intros Hrun Hturn.
  destruct (NextTurn_running p Hrun) as (q & Hq & Hturns).
  rewrite Hq in Hturn. injection Hturn as _ <-.
  unfold IsRunning, STOP_BELOW_TURNS in Hrun.
  apply Z.geb_le in Hrun.
  pose proof (int_wrap_le (TurnsLeft (game p) - 1)) as Hle.
  rewrite Hturns. lia.
Qed.

(** Case analysis that remembers which case was taken. *)
Definition inspect {A : Type} (a : A) : {b : A | a = b} := exist _ a eq_refl.

(** [while (game.IsRunning()) { game.NextTurn(std::cin, std::cout); }].
    An exception thrown by a turn leaves the loop. *)
Equations? game_loop (p : Process) : result unit * Process
  by wf (Z.to_nat (TurnsLeft (game p))) lt :=
  game_loop p with inspect (IsRunning (game p)) := {
    | exist _ false _ => (ok tt, p)
    | exist _ true Hrun with inspect (NextTurn p) := {
        | exist _ (inl e, p') _ => (inl e, p')
        | exist _ (inr _, p') Hturn => game_loop p' } }.
Proof.
  exact (NextTurn_measure p p' _ Hrun Hturn).
Qed.

(** [main]: the exit status or the uncaught exception, the unread input
    and everything written to [std::cout]. *)
Definition main (stdin : S) : result Z * (S * String) :=
  match new_Game stdin with
  | (inl e, stdin') => (inl e, (stdin', ""))
  | (inr g, stdin') =>
      match game_loop (mkProcess g stdin' "") with
      | (inl e, p) => (inl e, (cin p, cout p))
      | (inr _, p) => (ok 0, (cin p, cout p))
      end
  end.

End Loop.

(** ** A character-level input stream *)

(** The unread characters and the fail bit of a [std::istream] in the
    classic locale with default flags ([skipws], decimal base).  The third
    component is not part of the stream: it is what the [int] declared
    without initialiser in [Read<int>] holds when an extraction stores
    nothing in it. *)
Record istream : Type := mkIstream {
  buffer : String;
  failbit : bool;
  indeterminate : Z
}.

Definition isspace (c : ascii) : bool :=
  let n := nat_of_ascii c in
  ((n =? 32) || ((9 <=? n) && (n <=? 13)))%nat.

Definition isdigit (c : ascii) : bool :=
  let n := nat_of_ascii c in
  ((48 <=? n) && (n <=? 57))%nat.

Fixpoint skipws (s : String) : String :=
  match s with
  | EmptyString => EmptyString
  | String.String c s' => if isspace c then skipws s' else s
  end.

(** The longest prefix whose characters satisfy [f], and the rest. *)
Fixpoint span (f : ascii -> bool) (s : String) : String * String :=
  match s with
  | EmptyString => (EmptyString, EmptyString)
  | String.String c s' =>
      if f c
      then let (taken, rest) := span f s' in (String.String c taken, rest)
      else (EmptyString, s)
  end.

Fixpoint digits_value (acc : Z) (s : String) : Z :=
  match s with
  | EmptyString => acc
  | String.String c s' =>
      digits_value (10 * acc + (Z.of_nat (nat_of_ascii c) - 48)) s'
  end.

(** [input >> str]: skips white space, then takes characters up to the next
    white space.  On a failed stream, or when no character is left, the
    target keeps its value, which at the one call site is the empty string
    of a fresh [String]. *)
Definition istream_extract_String (input : istream) : String * istream :=
  if failbit input then ("", input)
  else
    let (word, rest) :=
      span (fun c => negb (isspace c)) (skipws (buffer input)) in
    if is_empty word then ("", mkIstream rest true (indeterminate input))
    else (word, mkIstream rest false (indeterminate input)).

Definition read_sign (s : String) : bool * String :=
  match s with
  | String.String c s' =>
      if Ascii.eqb c "-"%char then (true, s')
      else if Ascii.eqb c "+"%char then (false, s')
      else (false, s)
  | EmptyString => (false, s)
  end.

(** [input >> n] for an [int].  On an already failed stream, and at the
    end of the input (nothing but white space is left, so the sentry
    fails), the fail bit is set and the target is not written: [Read<int>]
    then returns its uninitialised [int].  Otherwise the extraction takes
    an optional sign and the digits that follow: without a digit it stores
    0 and sets the fail bit; a value outside [int] is replaced by the
    nearest bound and the fail bit is set. *)
Definition istream_extract_int (input : istream) : Z * istream :=
  if failbit input then (indeterminate input, input)
  else
    let s := skipws (buffer input) in
    if is_empty s
    then (indeterminate input, mkIstream s true (indeterminate input))
    else
      let (negative, s1) := read_sign s in
      let (ds, rest) := span isdigit s1 in
      if is_empty ds then (0, mkIstream rest true (indeterminate input))
      else
        let v :=
          if negative then - digits_value 0 ds else digits_value 0 ds in
        if v >? INT_MAX
        then (INT_MAX, mkIstream rest true (indeterminate input))
        else if v <? INT_MIN
        then (INT_MIN, mkIstream rest true (indeterminate input))
        else (v, mkIstream rest false (indeterminate input)).

#[export] Instance IStream_istream : IStream istream := {
  extract_int := istream_extract_int;
  extract_String := istream_extract_String
}.

(** A stream over the given text, in good state, in a run where an [int]
    that is never written happens to hold [junk]. *)
Definition stream_with (junk : Z) (text : String) : istream :=
  mkIstream text false junk.

(** The same with 0 for the unwritten [int]; the runs below never read
    one, since each of their texts holds the five integers. *)
Definition stream_of (text : String) : istream := stream_with 0 text.

Definition LF : String := endl.


(** ** Observations of a run *)

(** The line written for one jump: [output << X << " " << Y << std::endl]. *)
Definition print_probe (pt : Point) : String :=
  insert (X pt) ++ " " ++ insert (Y pt) ++ endl.

Fixpoint print_probes (ps : list Point) : String :=
  match ps with
  | [] => ""
  | pt :: ps' => print_probe pt ++ print_probes ps'
  end.

Section Observations.

Context {S : Type} `{IStream S}.

(** The value of the local [jumpTo] of [OnTurn] when a turn starts in [p]. *)
Definition jumpTo (p : Process) : Point :=
  fst (MakeDecision (Strategy (game p)) (fst (extract_String (cin p)))).

(** The state in which [NextTurn] leaves the process. *)
Definition after_turn (p : Process) : Process := snd (NextTurn p).

(** The jumps of the turns the loop executes from [p], at most [fuel] of
    them. *)
Fixpoint probes (fuel : nat) (p : Process) : list Point :=
  match fuel with
  | O => []
  | Datatypes.S fuel' =>
      if IsRunning (game p)
      then jumpTo p :: probes fuel' (after_turn p)
      else []
  end.

(** The five integers [Game]'s constructor reads, in order, and the stream
    after them when no check has thrown. *)
Definition bootstrap_values (stdin : S) : (Z * Z * Z * Z * Z) * S :=
  let (w, s1) := extract_int stdin in
  let (h, s2) := extract_int s1 in
  let (t, s3) := extract_int s2 in
  let (x, s4) := extract_int s3 in
  let (y, s5) := extract_int s4 in
  ((w, h, t, x, y), s5).

End Observations.

(** ** Notions of the specification that the claims refer to *)

(** The specification's search window: inclusive bounds on both axes. *)
Record Rectangle : Type := mkRectangle {
  xMin : Z; xMax : Z; yMin : Z; yMax : Z
}.

Definition area (r : Rectangle) : Z :=
  (xMax r - xMin r + 1) * (yMax r - yMin r + 1).

(** The only rectangle a [Game] holds is its building; no member stores a
    narrower window.  This is the window [0, width-1] x [0, height-1] that
    the session knows. *)
Definition search_window (g : Game) : Rectangle :=
  mkRectangle 0 (GetWidth (House g) - 1) 0 (GetHeight (House g) - 1).

(** A probe sequence reaches [target] within [budget] turns. *)
Definition converges_within (ps : list Point) (target : Point) (budget : nat)
  : Prop :=
  exists k, (k < budget)%nat /\ nth_error ps k = Some target.

(** The turn whose probe is the target is the last one executed. *)
Definition stops_when_found (ps : list Point) (target : Point) : Prop :=
  forall k, nth_error ps k = Some target -> length ps = Datatypes.S k.

(** A turn ends in an exception. *)
Definition raises {St A : Type} (r : result A * St) : Prop :=
  exists e, fst r = inl e.

(** ** Concrete runs *)

(** Words of a text, one per line. *)
Fixpoint unlines (ws : list String) : String :=
  match ws with
  | [] => ""
  | w :: ws' => w ++ LF ++ unlines ws'
  end.

(** Building 10 x 5, 20 turns, start (0,0); then the feedback of a referee
    whose bomb is anywhere while the player keeps jumping to where it
    already is: the first answer is UNKNOWN, every later one SAME. *)
Definition sample_text : String :=
  unlines (["10 5"; "20"; "0 0"; "UNKNOWN"] ++ repeat "SAME" 19).

Definition sample_game : Game :=
  mkGame (mkBuilding 10 5) 20 (mkBatman (mkPoint 0 0)) CreateStrategy.

(** The process when the loop is entered on [sample_text]. *)
Definition sample_start : Process :=
  mkProcess sample_game
            (snd (bootstrap_values (stream_of sample_text))) "".

(** A text whose turn budget, 101, is above the accepted maximum. *)
Definition overbudget_text : String :=
  unlines ["10 5"; "101"; "0 0"; "UNKNOWN"].

(** The sample game once its budget is used up. *)
Definition sample_stopped : Process :=
  mkProcess
    (mkGame (mkBuilding 10 5) 0 (mkBatman (mkPoint 0 0)) CreateStrategy)
    (stream_of (unlines ["SAME"]))
    (print_probes (repeat (mkPoint 0 0) 20)).

(** Building 10 x 5, 20 turns, start (0,0); the second feedback word says
    that the bomb is above, although the probe before it was (0,0). *)
Definition above_text : String :=
  unlines ["10 5"; "20"; "0 0"; "UNKNOWN"; "U"].

Definition above_start : Process :=
  mkProcess sample_game (snd (bootstrap_values (stream_of above_text))) "".

(** Building 10 x 5, 20 turns, and a start at (9999, 9999), far outside
    the building. *)
Definition outside_text : String :=
  unlines ["10 5"; "20"; "9999 9999"; "UNKNOWN"].

(** ** Further observations *)

(** The predicates handed to [CheckArgument] by the five checks of the
    bootstrap, in the order in which the checks run. *)
Definition width_ok (w : Z) : bool := (w >=? MIN_WIDTH) && (w <=? MAX_WIDTH).
Definition height_ok (h : Z) : bool :=
  (h >=? MIN_HEIGHT) && (h <=? MAX_HEIGHT).
Definition turns_ok (turns : Z) : bool :=
  (turns >=? MIN_INPUT_TURNS) && (turns <=? MAX_INPUT_TURNS).
Definition x0_ok (x0 : Z) : bool := (x0 >=? 0) && (x0 <? MAX_WIDTH).
Definition y0_ok (y0 : Z) : bool := (y0 >=? 0) && (y0 <? MAX_HEIGHT).

Definition bootstrap_ok (v : Z * Z * Z * Z * Z) : bool :=
  let '(w, h, t, x, y) := v in
  width_ok w && height_ok h && turns_ok t && x0_ok x && y0_ok y.

(** The labels the five checks pass to [CheckArgument]. *)
Definition check_labels : list String :=
  ["Building width"; "Building height"; "Turns left";
   "Batman x0"; "Batman y0"].

(** Every character of a string satisfies [f]. *)
Fixpoint all_chars (f : ascii -> bool) (s : String) : bool :=
  match s with
  | EmptyString => true
  | String.String c s' => f c && all_chars f s'
  end.

(** The characters [operator<<] writes for an [int]. *)
Definition is_numeral_char (c : ascii) : bool :=
  isdigit c || Ascii.eqb c "-"%char.

Section MoreObservations.

Context {S : Type} `{IStream S}.

(** The stream after [n] extractions of a word. *)
Definition skip_words (n : nat) (input : S) : S :=
  Nat.iter n (fun s => snd (extract_String s)) input.

(** The process after [k] requests of a turn, refused ones included. *)
Definition after_turns (k : nat) (p : Process) : Process :=
  Nat.iter k after_turn p.

End MoreObservations.

(** Building 0 x 3, both dimensions out of range. *)
Definition bad_building_text : String := unlines ["0 3"; "50"; "1 1"; "SAME"].

(** ** Auxiliary lemmas *)

Lemma append_assoc (a b c : String) : (a ++ b) ++ c = a ++ (b ++ c).
Proof.
  induction a as [|ch a IH]; cbn; [reflexivity | now rewrite IH].
Qed.

Lemma append_nil_r (a : String) : a ++ "" = a.
Proof.
  induction a as [|ch a IH]; cbn; [reflexivity | now rewrite IH].
Qed.

Lemma CheckArgument_accepts {T : Type} `{Insertable T}
  (argument : T) (pred : T -> bool) (message : String) :
  pred argument = true -> CheckArgument argument pred message = ok argument.
Proof. intros Hp. unfold CheckArgument. now rewrite Hp. Qed.

Section Facts.

Context {S : Type} `{IStream S}.

Lemma OnTurn_eq (p : Process) :
  OnTurn p
  = (ok tt,
     mkProcess (game p) (snd (extract_String (cin p)))
               (cout p ++ print_probe (mkPoint 0 0))).
Proof.
  unfold OnTurn. destruct (extract_String (cin p)) as [bombDir input'].
  destruct p as [[house turns player []] input output]. reflexivity.
Qed.

Lemma NextTurn_stopped (p : Process) :
  IsRunning (game p) = false -> NextTurn p = (throw not_running, p).
Proof.
  intros Hrun. unfold NextTurn, bind, BeforeTurn. now rewrite Hrun.
Qed.

Lemma NextTurn_eq (p : Process) :
  IsRunning (game p) = true ->
  NextTurn p
  = (ok tt,
     mkProcess
       (mkGame (House (game p)) (int_wrap (TurnsLeft (game p) - 1))
               (Player (game p)) (Strategy (game p)))
       (snd (extract_String (cin p)))
       (cout p ++ print_probe (mkPoint 0 0))).
Proof.
  intros Hrun. unfold NextTurn, bind, BeforeTurn. rewrite Hrun. cbn.
  rewrite OnTurn_eq. reflexivity.
Qed.

Lemma game_loop_eq (p : Process) :
  game_loop p
  = if IsRunning (game p)
    then match NextTurn p with
         | (inl e, p') => (inl e, p')
         | (inr _, p') => game_loop p'
         end
    else (ok tt, p).
Proof.
  funelim (game_loop p);
    try match goal with E : IsRunning _ = _ |- _ => rewrite E end;
    try match goal with E : NextTurn _ = _ |- _ => rewrite E end;
    reflexivity.
Qed.

End Facts.

Section Runs.

Context {S : Type} `{IStream S}.

Lemma after_turn_running (p : Process) :
  IsRunning (game p) = true ->
  after_turn p
  = mkProcess
      (mkGame (House (game p)) (int_wrap (TurnsLeft (game p) - 1))
              (Player (game p)) (Strategy (game p)))
      (snd (extract_String (cin p)))
      (cout p ++ print_probe (mkPoint 0 0)).
Proof.
  intros Hrun. unfold after_turn. now rewrite NextTurn_eq.
Qed.

Lemma IsRunning_true (g : Game) : IsRunning g = true <-> 1 <= TurnsLeft g.
Proof.
  unfold IsRunning, STOP_BELOW_TURNS. rewrite Z.geb_le. reflexivity.
Qed.

Lemma IsRunning_false (g : Game) : IsRunning g = false <-> TurnsLeft g < 1.
Proof.
  unfold IsRunning, STOP_BELOW_TURNS.
  destruct (Z.geb_spec (TurnsLeft g) 1); split; intros; try lia; congruence.
Qed.

(** Every jump of every run is the origin. *)
Lemma probes_origin (fuel : nat) (p : Process) :
  probes fuel p = repeat (mkPoint 0 0) (length (probes fuel p)).
Proof.
  revert p. induction fuel as [|fuel IH]; intros p; cbn; [reflexivity|].
  destruct (IsRunning (game p)); cbn; [|reflexivity].
  rewrite <- IH. reflexivity.
Qed.

(** With enough fuel the loop executes exactly [TurnsLeft] turns, provided
    the counter is a value of type [int]. *)
Lemma probes_length (fuel : nat) (p : Process) :
  TurnsLeft (game p) <= INT_MAX ->
  TurnsLeft (game p) <= Z.of_nat fuel ->
  length (probes fuel p) = Z.to_nat (TurnsLeft (game p)).
Proof.
  revert p. induction fuel as [|fuel IH]; intros p Hmax Hfuel.
  - cbn. lia.
  - cbn [probes]. destruct (IsRunning (game p)) eqn:Hrun.
    + apply IsRunning_true in Hrun as Hpos.
      cbn [length]. rewrite IH.
      * rewrite after_turn_running by assumption. cbn.
        rewrite int_wrap_id by (unfold int_range, INT_MIN, INT_MAX in *; lia).
        lia.
      * rewrite after_turn_running by assumption. cbn.
        rewrite int_wrap_id by (unfold int_range, INT_MIN, INT_MAX in *; lia).
        lia.
      * rewrite after_turn_running by assumption. cbn.
        rewrite int_wrap_id by (unfold int_range, INT_MIN, INT_MAX in *; lia).
        lia.
    + apply IsRunning_false in Hrun. cbn. lia.
Qed.

(** The loop terminates without an exception; it has written one line per
    executed turn and changed neither the building nor the player. *)
Lemma game_loop_run (fuel : nat) (p : Process) :
  TurnsLeft (game p) <= Z.of_nat fuel ->
  exists q,
    game_loop p = (ok tt, q)
    /\ cout q = cout p ++ print_probes (probes fuel p)
    /\ House (game q) = House (game p)
    /\ Player (game q) = Player (game p)
    /\ IsRunning (game q) = false.
Proof.
  revert p. induction fuel as [|fuel IH]; intros p Hfuel.
  - assert (Hrun : IsRunning (game p) = false)
      by (apply IsRunning_false; lia).
    exists p. rewrite game_loop_eq, Hrun. cbn.
    rewrite append_nil_r. auto.
  - rewrite game_loop_eq. cbn [probes].
    destruct (IsRunning (game p)) eqn:Hrun.
    + apply IsRunning_true in Hrun as Hpos.
      pose proof (after_turn_running p Hrun) as Hafter.
      rewrite NextTurn_eq by assumption. rewrite <- Hafter.
      destruct (IH (after_turn p)) as (q & Hq & Hout & Hhouse & Hplayer & Hstop).
      { rewrite Hafter. cbn.
        pose proof (int_wrap_le (TurnsLeft (game p) - 1)). lia. }
      exists q. repeat split; try assumption.
      * rewrite Hout, Hafter. cbn. apply append_assoc.
      * rewrite Hhouse, Hafter. reflexivity.
      * rewrite Hplayer, Hafter. reflexivity.
    + exists p. cbn. rewrite append_nil_r. auto.
Qed.

Lemma game_loop_no_throw (p : Process) : exists q, game_loop p = (ok tt, q).
Proof.
  destruct (game_loop_run (Z.to_nat (TurnsLeft (game p))) p) as (q & Hq & _);
    [lia | eauto].
Qed.

(** [main] writes nothing before an uncaught exception. *)
Lemma main_failure_silent (stdin rest : S) (e : exception) (out : String) :
  main stdin = (inl e, (rest, out)) -> out = "".
Proof.
  unfold main. destruct (new_Game stdin) as [[e'|g] stdin'].
  - intros [= _ _ <-]. reflexivity.
  - destruct (game_loop_no_throw (mkProcess g stdin' "")) as (q & ->).
    discriminate.
Qed.

(** The outcome of [main] after a successful construction of the game. *)
Lemma main_after_bootstrap (stdin stdin' : S) (g : Game) :
  new_Game stdin = (ok g, stdin') ->
  TurnsLeft g <= INT_MAX ->
  exists rest,
    main stdin
    = (ok 0, (rest, print_probes (repeat (mkPoint 0 0) (Z.to_nat (TurnsLeft g))))).
Proof.
  intros Hnew Hmax. unfold main. rewrite Hnew.
  set (p := mkProcess g stdin' "").
  destruct (game_loop_run (Z.to_nat (TurnsLeft g)) p) as (q & Hq & Hout & _).
  { cbn. lia. }
  rewrite Hq. exists (cin q). rewrite Hout. cbn [cout p].
  rewrite probes_origin, probes_length; cbn; try lia.
  reflexivity.
Qed.

End Runs.

Section Bootstrap.

Context {S : Type} `{IStream S}.

(** The game built from five integers that pass every check. *)
Lemma new_Game_valid (stdin rest : S) (w h t x y : Z) :
  bootstrap_values stdin = ((w, h, t, x, y), rest) ->
  1 <= w <= 10000 -> 5 <= h <= 10000 -> 2 <= t <= 100 ->
  0 <= x < 10000 -> 0 <= y < 10000 ->
  new_Game stdin
  = (ok (mkGame (mkBuilding w h) t (mkBatman (mkPoint x y)) CreateStrategy),
     rest).
Proof.
  intros Hboot Hw Hh Ht Hx Hy. revert Hboot.
  assert (Hb : new_Building w h = ok (mkBuilding w h)).
  { unfold new_Building.
    rewrite !CheckArgument_accepts;
      unfold MIN_WIDTH, MAX_WIDTH, MIN_HEIGHT, MAX_HEIGHT;
      try (apply andb_true_iff; split; lia).
    reflexivity. }
  assert (Ha : CheckArgument t
                 (fun turns => (turns >=? MIN_INPUT_TURNS)
                               && (turns <=? MAX_INPUT_TURNS)) "Turns left"
               = ok t).
  { apply CheckArgument_accepts.
    unfold MIN_INPUT_TURNS, MAX_INPUT_TURNS.
    apply andb_true_iff; split; lia. }
  assert (Hp : new_Batman x y = ok (mkBatman (mkPoint x y))).
  { unfold new_Batman.
    rewrite !CheckArgument_accepts;
      unfold MAX_WIDTH, MAX_HEIGHT;
      try (apply andb_true_iff; split; lia).
    reflexivity. }
  unfold bootstrap_values.
  unfold new_Game, ReadBuilding, ReadTurns, ReadBatman, bind, Read_int, lift.
  destruct (extract_int stdin) as [w' s1].
  destruct (extract_int s1) as [h' s2].
  destruct (extract_int s2) as [t' s3].
  destruct (extract_int s3) as [x' s4].
  destruct (extract_int s4) as [y' s5].
  intros [= -> -> -> -> -> ->].
  rewrite Hb, Ha, Hp. reflexivity.
Qed.

End Bootstrap.

(** ** Concrete runs, checked *)

Lemma sample_start_ok :
  new_Game (stream_of sample_text) = (ok (game sample_start), cin sample_start).
Proof. vm_compute. reflexivity. Qed.

(** ** The claims *)

(** C1.  [SimpleStrategy::MakeDecision] returns the point (0,0) for every
    feedback string and leaves the strategy object as it was; hence
    [OnTurn] never fails and appends exactly the line "0 0" and a line
    feed to the output; a requested turn writes that one line when the
    game is running and nothing otherwise; and the whole output of [main]
    consists of such lines only, one per executed turn. *)
Theorem C1_stub_strategy_prints_origin :
  (forall (self : SimpleStrategy) (bombDirection : String),
      MakeDecision self bombDirection = (mkPoint 0 0, self))
  /\ (forall (S : Type) (IS : IStream S) (p : @Process S),
        fst (OnTurn p) = ok tt
        /\ cout (snd (OnTurn p)) = cout p ++ "0 0" ++ endl
        /\ cout (after_turn p)
           = if IsRunning (game p) then cout p ++ "0 0" ++ endl else cout p)
  /\ (forall (S : Type) (IS : IStream S) (stdin : S),
        exists turns : nat,
          snd (snd (main stdin))
          = print_probes (repeat (mkPoint 0 0) turns)).
Proof.
  split; [reflexivity | split].
  - intros S IS p. rewrite OnTurn_eq. repeat split.
    unfold after_turn. destruct (IsRunning (game p)) eqn:Hrun.
    + rewrite NextTurn_eq by assumption. reflexivity.
    + rewrite NextTurn_stopped by assumption. reflexivity.
  - intros S IS stdin. unfold main.
    destruct (new_Game stdin) as [[e|g] stdin'].
    + exists 0%nat. reflexivity.
    + set (p := mkProcess g stdin' "").
      destruct (game_loop_run (Z.to_nat (TurnsLeft g)) p)
        as (q & Hq & Hout & _); [cbn; lia|].
      rewrite Hq. cbn [snd].
      exists (length (probes (Z.to_nat (TurnsLeft g)) p)).
      rewrite Hout, <- probes_origin. reflexivity.
Qed.

(** C2.  Constructing a [Building] fails exactly when the width is outside
    [1, 10000] or the height is outside [5, 10000]; the failure is the
    exception of the argument check of the offending dimension (the width
    first); on success [GetWidth] and [GetHeight] return the constructor
    arguments.  Neither a turn nor the whole loop changes the building. *)
Theorem C2_Building_validated_and_immutable :
  (forall width height : Z,
      (succeeded (new_Building width height) = false
       <-> (width < 1 \/ 10000 < width) \/ (height < 5 \/ 10000 < height))
      /\ match new_Building width height with
         | inr b => GetWidth b = width /\ GetHeight b = height
         | inl e =>
             e = runtime_error (formattedMessage width "Building width")
             \/ e = runtime_error (formattedMessage height "Building height")
         end)
  /\ (forall (S : Type) (IS : IStream S) (p : @Process S),
        House (game (snd (NextTurn p))) = House (game p)
        /\ House (game (snd (game_loop p))) = House (game p)).
Proof.
  split.
  - intros width height. unfold new_Building, result_bind, CheckArgument.
    unfold MIN_WIDTH, MAX_WIDTH, MIN_HEIGHT, MAX_HEIGHT.
    destruct (Z.geb_spec width 1), (Z.leb_spec width 10000),
             (Z.geb_spec height 5), (Z.leb_spec height 10000);
      cbn; (split; [split; [intros; try discriminate; lia
                           | intros; try reflexivity; lia]
                   | auto]).
  - intros S IS p. split.
    + destruct (IsRunning (game p)) eqn:Hrun.
      * rewrite NextTurn_eq by assumption. reflexivity.
      * rewrite NextTurn_stopped by assumption. reflexivity.
    + destruct (game_loop_run (Z.to_nat (TurnsLeft (game p))) p)
        as (q & Hq & _ & Hhouse & _); [lia|].
      rewrite Hq. exact Hhouse.
Qed.

(** C3.  [ReadTurns] reads one integer and accepts it exactly when it lies
    in [2, 100]; otherwise it throws the exception of the argument check.
    When the third integer of the input is outside that range, [main] ends
    in an exception with nothing written to the output; after a valid
    building that exception is the one for the turn budget. *)
Theorem C3_turn_budget_validated
  {S : Type} `{IStream S} (stdin s1 s2 s3 : S) (w h t : Z) :
  extract_int stdin = (w, s1) ->
  extract_int s1 = (h, s2) ->
  extract_int s2 = (t, s3) ->
  ReadTurns s2
  = (if (2 <=? t) && (t <=? 100)
     then ok t
     else throw (runtime_error (formattedMessage t "Turns left")),
     s3)
  /\ (~ 2 <= t <= 100 ->
      exists e rest,
        main stdin = (throw e, (rest, ""))
        /\ (succeeded (new_Building w h) = true ->
            e = runtime_error (formattedMessage t "Turns left")
            /\ rest = s3)).
Proof.
  intros Hw Hh Ht.
  assert (Hread : ReadTurns s2
                  = (if (2 <=? t) && (t <=? 100)
                     then ok t
                     else throw (runtime_error
                                   (formattedMessage t "Turns left")),
                     s3)).
  { unfold ReadTurns, bind, Read_int, lift. rewrite Ht.
    unfold CheckArgument, MIN_INPUT_TURNS, MAX_INPUT_TURNS.
    rewrite Z.geb_leb.
    destruct ((2 <=? t) && (t <=? 100)); reflexivity. }
  split; [exact Hread|].
  intros Hout.
  assert (Hbad : (2 <=? t) && (t <=? 100) = false).
  { apply andb_false_iff.
    destruct (Z.leb_spec 2 t); [right | left; reflexivity].
    apply Z.leb_gt. lia. }
  rewrite Hbad in Hread.
  unfold main, new_Game, bind.
  unfold ReadBuilding at 1. unfold bind, Read_int, lift. rewrite Hw, Hh.
  destruct (new_Building w h) as [e|house].
  - exists e, s2. split; [reflexivity | discriminate].
  - rewrite Hread. eexists _, _. split; [reflexivity|]. auto.
Qed.

Lemma C3_turn_budget_validated_witness :
  exists e rest,
    main (stream_of overbudget_text) = (throw e, (rest, ""))
    /\ (succeeded (new_Building 10 5) = true ->
        e = runtime_error "Turns left: argument '101' is incorrect"
        /\ rest = snd (extract_int
                         (snd (extract_int
                                 (snd (extract_int
                                         (stream_of overbudget_text))))))).
Proof.
  refine (proj2 (C3_turn_budget_validated
                   (stream_of overbudget_text) _ _ _ 10 5 101
                   eq_refl eq_refl eq_refl) _).
  lia.
Defined.

(** C4.  The game is stopped exactly when [TurnsLeft] is below 1.  A turn
    requested on a running game succeeds and leaves [TurnsLeft] lower by
    exactly 1.  A turn requested on a stopped game throws the "not running"
    exception and changes nothing: no input is read and no output written.
    The loop itself executes no turn once the game is stopped. *)
Theorem C4_turn_counter {S : Type} `{IStream S} (p : Process) :
  (IsRunning (game p) = false <-> TurnsLeft (game p) < 1)
  /\ (IsRunning (game p) = true ->
      TurnsLeft (game p) <= INT_MAX ->
      fst (NextTurn p) = ok tt
      /\ TurnsLeft (game (snd (NextTurn p))) = TurnsLeft (game p) - 1)
  /\ (IsRunning (game p) = false ->
      NextTurn p = (throw not_running, p)
      /\ game_loop p = (ok tt, p)).
Proof.
  split; [apply IsRunning_false | split].
  - intros Hrun Hmax. rewrite NextTurn_eq by assumption. cbn.
    apply IsRunning_true in Hrun.
    rewrite int_wrap_id; [auto|].
    unfold int_range, INT_MIN, INT_MAX in *. lia.
  - intros Hrun. split.
    + now apply NextTurn_stopped.
    + rewrite game_loop_eq, Hrun. reflexivity.
Qed.

Lemma C4_turn_counter_witness :
  (fst (NextTurn sample_start) = ok tt
   /\ TurnsLeft (game (snd (NextTurn sample_start))) = 20 - 1)
  /\ (NextTurn sample_stopped = (throw not_running, sample_stopped)
      /\ game_loop sample_stopped = (ok tt, sample_stopped)).
Proof.
  split.
  - refine (proj1 (proj2 (C4_turn_counter sample_start)) eq_refl _).
    unfold INT_MAX. cbn. lia.
  - exact (proj2 (proj2 (C4_turn_counter sample_stopped)) eq_refl).
Defined.

(** C5, as the specification states it, fails on the program: between the
    start of the first turn of the sample run and its end the window known
    to the session keeps its area, although the window is not a single
    cell and the probe, (0,0), is not the target (6,3). *)
Lemma C5_area_counterexample :
  ~ (area (search_window (game (after_turn sample_start)))
     < area (search_window (game sample_start))
     \/ area (search_window (game sample_start)) = 1
     \/ jumpTo sample_start = mkPoint 6 3).
Proof.
  vm_compute. intros [Hlt | [Hone | Hfound]]; discriminate.
Qed.

(** C5, amended.  The session stores no rectangle besides the building: a
    turn changes only [TurnsLeft], the input and the output, so the window
    [0, width-1] x [0, height-1] has the same area after the turn as before
    it, whatever the feedback; the area never increases and never
    decreases.  For a constructed building that area is width * height, at
    least 5. *)
Theorem C5_window_area_constant :
  (forall (S : Type) (IS : IStream S) (p : @Process S),
      House (game (after_turn p)) = House (game p)
      /\ Player (game (after_turn p)) = Player (game p)
      /\ Strategy (game (after_turn p)) = Strategy (game p)
      /\ area (search_window (game (after_turn p)))
         = area (search_window (game p))
      /\ area (search_window (game (after_turn p)))
         <= area (search_window (game p)))
  /\ (forall (width height turns : Z) (player : Batman),
        match new_Building width height with
        | inr b =>
            let g := mkGame b turns player CreateStrategy in
            area (search_window g) = width * height
            /\ 5 <= area (search_window g)
        | inl _ => True
        end).
Proof.
  split.
  - intros S IS p.
    assert (Hgame : House (game (after_turn p)) = House (game p)
                    /\ Player (game (after_turn p)) = Player (game p)
                    /\ Strategy (game (after_turn p)) = Strategy (game p)).
    { unfold after_turn. destruct (IsRunning (game p)) eqn:Hrun.
      - rewrite NextTurn_eq by assumption. cbn. auto.
      - rewrite NextTurn_stopped by assumption. cbn. auto. }
    destruct Hgame as (Hhouse & Hplayer & Hstrategy).
    unfold search_window. rewrite Hhouse. repeat split; auto. lia.
  - intros width height turns player.
    unfold new_Building, result_bind, CheckArgument.
    unfold MIN_WIDTH, MAX_WIDTH, MIN_HEIGHT, MAX_HEIGHT.
    destruct (Z.geb_spec width 1), (Z.leb_spec width 10000),
             (Z.geb_spec height 5), (Z.leb_spec height 10000);
      cbn; auto.
    unfold area. cbn. split; nia.
Qed.

(** C6.  A decision of the strategy is a function of the feedback alone.
    Made in two processes that differ in anything whatever (the game, the
    turns left, the pending input, the output written, even the kind of
    stream), the call with the same feedback returns the same point and
    throws nothing; it leaves the process, the strategy object included,
    exactly as it found it, so that asking again yields the identical
    answer.  The point is the one the [IStrategy] interface returns and
    [OnTurn] prints. *)
Theorem C6_MakeDecision_reads_no_state
  {S1 S2 : Type} `{IStream S1}
  (p1 : @Process S1) (p2 : @Process S2) (feedback : String) :
  fst (SimpleStrategy_MakeDecision feedback p1)
  = fst (SimpleStrategy_MakeDecision feedback p2)
  /\ Strategy (game (snd (SimpleStrategy_MakeDecision feedback p1)))
     = Strategy (game (snd (SimpleStrategy_MakeDecision feedback p2)))
  /\ snd (SimpleStrategy_MakeDecision feedback p1) = p1
  /\ SimpleStrategy_MakeDecision feedback
       (snd (SimpleStrategy_MakeDecision feedback p1))
     = SimpleStrategy_MakeDecision feedback p1
  /\ exists jumpTo : Point,
       SimpleStrategy_MakeDecision feedback p1 = (ok jumpTo, p1)
       /\ MakeDecision (Strategy (game p1)) feedback
          = (jumpTo, Strategy (game p1))
       /\ cout (snd (OnTurn p1)) = cout p1 ++ print_probe jumpTo.
Proof.
  destruct p1 as [[house1 turns1 player1 []] input1 output1].
  destruct p2 as [[house2 turns2 player2 []] input2 output2].
  repeat split.
  exists (mkPoint 0 0). repeat split.
  rewrite OnTurn_eq. reflexivity.
Qed.

(** C7, as the specification states it, fails on the program: in the
    10 x 5 building, with a bomb at (6,3) and the feedback of the sample
    run, none of the first ceil(log2 10) + ceil(log2 5) = 7 probes, indeed
    none of the 20 probes of the run, is the target.  The probes are those
    the run prints. *)
Lemma C7_convergence_counterexample :
  succeeded (new_Building 10 5) = true
  /\ snd (snd (main (stream_of sample_text)))
     = print_probes (probes 20 sample_start)
  /\ Z.log2_up 10 + Z.log2_up 5 = 7
  /\ ~ converges_within (probes 20 sample_start) (mkPoint 6 3)
         (Z.to_nat (Z.log2_up 10 + Z.log2_up 5))
  /\ ~ In (mkPoint 6 3) (probes 20 sample_start).
Proof.
  split; [reflexivity|].
  split; [vm_compute; reflexivity|].
  split; [reflexivity | split].
  - intros (k & _ & Hk). apply nth_error_In in Hk.
    rewrite probes_origin in Hk. apply repeat_spec in Hk. discriminate.
  - intros Hin. rewrite probes_origin in Hin.
    apply repeat_spec in Hin. discriminate.
Qed.

(** C7, amended.  Whatever the building and the feedback, every probe of a
    run is (0,0).  The probes therefore reach a target within a budget
    exactly when the target is (0,0), the budget is positive and at least
    one turn is executed; they then reach it on the first turn. *)
Theorem C7_probes_stay_at_origin
  {S : Type} `{IStream S} (fuel : nat) (p : Process)
  (target : Point) (budget : nat) :
  probes fuel p = repeat (mkPoint 0 0) (length (probes fuel p))
  /\ (converges_within (probes fuel p) target budget
      <-> target = mkPoint 0 0
          /\ (0 < budget)%nat /\ (0 < fuel)%nat
          /\ IsRunning (game p) = true).
Proof.
  split; [apply probes_origin|]. split.
  - intros (k & Hk & Hnth).
    assert (Hin : In target (probes fuel p))
      by (eapply nth_error_In; eassumption).
    rewrite probes_origin in Hin. apply repeat_spec in Hin.
    split; [exact Hin | split; [lia|]].
    destruct fuel as [|fuel]; [destruct k; discriminate|].
    split; [lia|]. cbn in Hnth.
    destruct (IsRunning (game p)); [reflexivity | destruct k; discriminate].
  - intros (-> & Hbudget & Hfuel & Hrun).
    exists 0%nat. split; [exact Hbudget|].
    destruct fuel as [|fuel]; [lia|]. cbn. rewrite Hrun. reflexivity.
Qed.

(** C8, as the specification states it, fails on the program: with the
    bomb at (0,0) the first probe of the sample run is the target, yet the
    loop goes on to execute all 20 turns and prints 20 lines. *)
Lemma C8_found_counterexample :
  snd (snd (main (stream_of sample_text)))
  = print_probes (probes 20 sample_start)
  /\ nth_error (probes 20 sample_start) 0 = Some (mkPoint 0 0)
  /\ length (probes 20 sample_start) = 20%nat
  /\ ~ stops_when_found (probes 20 sample_start) (mkPoint 0 0).
Proof.
  split; [vm_compute; reflexivity|].
  split; [reflexivity | split; [reflexivity|]].
  intros Hstop. specialize (Hstop 0%nat eq_refl). discriminate.
Qed.

(** C8, amended.  The loop has no "found" signal: [MakeDecision] returns
    only a point and the one exit test is [IsRunning].  For every input
    whose five integers pass the checks, with turn budget [t], and whatever
    feedback follows, the loop executes exactly [t] turns, each writing
    one line, stops with [TurnsLeft] below 1 and [main] returns 0 without
    an exception. *)
Theorem C8_loop_runs_whole_budget
  {S : Type} `{IStream S} (stdin rest : S) (w h t x y : Z) :
  bootstrap_values stdin = ((w, h, t, x, y), rest) ->
  1 <= w <= 10000 -> 5 <= h <= 10000 -> 2 <= t <= 100 ->
  0 <= x < 10000 -> 0 <= y < 10000 ->
  let g := mkGame (mkBuilding w h) t (mkBatman (mkPoint x y)) CreateStrategy in
  let p := mkProcess g rest "" in
  length (probes (Z.to_nat t) p) = Z.to_nat t
  /\ (exists q,
        game_loop p = (ok tt, q) /\ IsRunning (game q) = false)
  /\ (exists rest',
        main stdin
        = (ok 0, (rest', print_probes (repeat (mkPoint 0 0) (Z.to_nat t))))).
Proof.
  intros Hboot Hw Hh Ht Hx Hy g p.
  pose proof (new_Game_valid stdin rest w h t x y Hboot Hw Hh Ht Hx Hy)
    as Hnew.
  fold g in Hnew.
  split; [|split].
  - apply probes_length; cbn; unfold INT_MAX; lia.
  - destruct (game_loop_run (Z.to_nat t) p) as (q & Hq & _ & _ & _ & Hstop);
      [cbn; lia | eauto].
  - apply (main_after_bootstrap stdin rest g Hnew).
    cbn. unfold INT_MAX. lia.
Qed.

Lemma C8_loop_runs_whole_budget_witness :
  length (probes 20 sample_start) = 20%nat
  /\ (exists q,
        game_loop sample_start = (ok tt, q) /\ IsRunning (game q) = false)
  /\ (exists rest',
        main (stream_of sample_text)
        = (ok 0, (rest', print_probes (repeat (mkPoint 0 0) 20)))).
Proof.
  refine (C8_loop_runs_whole_budget (stream_of sample_text) _ 10 5 20 0 0
            eq_refl _ _ _ _ _); lia.
Defined.

(** C9, as the specification states it, fails on the program: the first
    probe has y = 0, the next feedback word is "U", and the turn that
    reads it ends without an exception; so does the whole run. *)
Lemma C9_integrity_counterexample :
  new_Game (stream_of above_text) = (ok (game above_start), cin above_start)
  /\ Y (jumpTo above_start) = 0
  /\ fst (extract_String (cin (after_turn above_start))) = "U"
  /\ ~ raises (NextTurn (after_turn above_start))
  /\ fst (main (stream_of above_text)) = ok 0.
Proof.
  split; [vm_compute; reflexivity|].
  split; [reflexivity|].
  split; [vm_compute; reflexivity|].
  split; [|vm_compute; reflexivity].
  intros (e & He). vm_compute in He. discriminate.
Qed.

(** C9, amended.  No turn checks the feedback: [OnTurn] hands the word to
    [MakeDecision], which ignores it, and never throws.  A turn requested
    on a running game succeeds for every feedback word; the only exception
    a turn can end in is the "not running" one of a stopped game.  Every
    exception of the program is a [std::runtime_error]. *)
Theorem C9_feedback_never_rejected {S : Type} `{IStream S} (p : Process) :
  fst (OnTurn p) = ok tt
  /\ (IsRunning (game p) = true -> ~ raises (NextTurn p))
  /\ (forall e, fst (NextTurn p) = throw e ->
                e = not_running /\ IsRunning (game p) = false)
  /\ (forall e : exception, e = runtime_error (what e)).
Proof.
  split; [now rewrite OnTurn_eq | split; [|split]].
  - intros Hrun (e & He). rewrite NextTurn_eq in He by assumption.
    discriminate.
  - intros e He. destruct (IsRunning (game p)) eqn:Hrun.
    + rewrite NextTurn_eq in He by assumption. discriminate.
    + rewrite NextTurn_stopped in He by assumption. cbn in He.
      injection He as <-. auto.
  - intros [m]. reflexivity.
Qed.

Lemma C9_feedback_never_rejected_witness :
  ~ raises (NextTurn (after_turn above_start))
  /\ (not_running = not_running
      /\ IsRunning (game sample_stopped) = false).
Proof.
  split.
  - exact (proj1 (proj2 (C9_feedback_never_rejected (after_turn above_start)))
             eq_refl).
  - exact (proj1 (proj2 (proj2 (C9_feedback_never_rejected sample_stopped)))
             not_running eq_refl).
Defined.

(** C10.  Constructing a [Batman] succeeds exactly when 0 <= x < 10000 and
    0 <= y < 10000, and the position then holds the arguments.  The
    building plays no part: for every valid building and turn budget, a
    start at or beyond the building's width or height, but below 10000 on
    both axes, yields a game without any exception; and every building
    smaller than the maxima admits such a start. *)
Theorem C10_start_checked_against_maxima_only
  {S : Type} `{IStream S} (stdin rest : S) (w h t x y : Z) :
  (succeeded (new_Batman x y) = true <-> 0 <= x < 10000 /\ 0 <= y < 10000)
  /\ (bootstrap_values stdin = ((w, h, t, x, y), rest) ->
      1 <= w <= 10000 -> 5 <= h <= 10000 -> 2 <= t <= 100 ->
      0 <= x < 10000 -> 0 <= y < 10000 ->
      w <= x \/ h <= y ->
      new_Game stdin
      = (ok (mkGame (mkBuilding w h) t (mkBatman (mkPoint x y))
                    CreateStrategy), rest)
      /\ GetPosition (mkBatman (mkPoint x y)) = mkPoint x y)
  /\ (1 <= w <= 10000 -> 5 <= h <= 10000 -> w < 10000 \/ h < 10000 ->
      exists x' y',
        (w <= x' \/ h <= y')
        /\ new_Batman x' y' = ok (mkBatman (mkPoint x' y'))).
Proof.
  split; [|split].
  - unfold new_Batman, result_bind, CheckArgument, MAX_WIDTH, MAX_HEIGHT.
    destruct (Z.geb_spec x 0), (Z.ltb_spec x 10000),
             (Z.geb_spec y 0), (Z.ltb_spec y 10000);
      cbn; split; intros; try discriminate; try reflexivity; lia.
  - intros Hboot Hw Hh Ht Hx Hy _. split; [|reflexivity].
    now apply new_Game_valid.
  - intros Hw Hh [Hnarrow | Hshort].
    + exists w, 0. split; [left; lia|].
      unfold new_Batman. rewrite !CheckArgument_accepts; try reflexivity.
      unfold MAX_WIDTH. apply andb_true_iff. split; lia.
    + exists 0, h. split; [right; lia|].
      unfold new_Batman. rewrite !CheckArgument_accepts; try reflexivity.
      unfold MAX_HEIGHT. apply andb_true_iff. split; lia.
Qed.

Lemma C10_start_checked_against_maxima_only_witness :
  (new_Game (stream_of outside_text)
   = (ok (mkGame (mkBuilding 10 5) 20 (mkBatman (mkPoint 9999 9999))
                 CreateStrategy),
      snd (bootstrap_values (stream_of outside_text)))
   /\ GetPosition (mkBatman (mkPoint 9999 9999)) = mkPoint 9999 9999)
  /\ (exists x' y',
        (10 <= x' \/ 5 <= y')
        /\ new_Batman x' y' = ok (mkBatman (mkPoint x' y'))).
Proof.
  split.
  - refine (proj1 (proj2 (C10_start_checked_against_maxima_only
                            (stream_of outside_text)
                            (snd (bootstrap_values (stream_of outside_text)))
                            10 5 20 9999 9999))
                  eq_refl _ _ _ _ _ _); lia.
  - refine (proj2 (proj2 (C10_start_checked_against_maxima_only
                            (stream_of outside_text)
                            (snd (bootstrap_values (stream_of outside_text)))
                            10 5 20 9999 9999)) _ _ _); lia.
Defined.

(** ** Further properties of the program *)

Section BootstrapCases.

Context {S : Type} `{IStream S}.

(** The outcome of [Game]'s constructor, by cases on the five checks in
    the order in which they run, with the stream position reached. *)
Lemma new_Game_cases (stdin s1 s2 s3 s4 s5 : S) (w h t x y : Z) :
  extract_int stdin = (w, s1) ->
  extract_int s1 = (h, s2) ->
  extract_int s2 = (t, s3) ->
  extract_int s3 = (x, s4) ->
  extract_int s4 = (y, s5) ->
  new_Game stdin
  = if negb (width_ok w)
    then (throw (runtime_error (formattedMessage w "Building width")), s2)
    else if negb (height_ok h)
    then (throw (runtime_error (formattedMessage h "Building height")), s2)
    else if negb (turns_ok t)
    then (throw (runtime_error (formattedMessage t "Turns left")), s3)
    else if negb (x0_ok x)
    then (throw (runtime_error (formattedMessage x "Batman x0")), s5)
    else if negb (y0_ok y)
    then (throw (runtime_error (formattedMessage y "Batman y0")), s5)
    else (ok (mkGame (mkBuilding w h) t (mkBatman (mkPoint x y))
                     CreateStrategy), s5).
Proof.
  intros Hw Hh Ht Hx Hy.
  unfold new_Game, ReadBuilding, ReadTurns, ReadBatman, bind, Read_int, lift.
  rewrite Hw, Hh.
  unfold new_Building, result_bind, CheckArgument.
  fold (width_ok w). fold (height_ok h).
  destruct (width_ok w); cbn [negb]; [|reflexivity].
  destruct (height_ok h); cbn [negb]; [|reflexivity].
  rewrite Ht. fold (turns_ok t).
  destruct (turns_ok t); cbn [negb]; [|reflexivity].
  rewrite Hx, Hy.
  unfold new_Batman, result_bind, CheckArgument.
  fold (x0_ok x). fold (y0_ok y).
  destruct (x0_ok x); cbn [negb]; [|reflexivity].
  destruct (y0_ok y); cbn [negb]; reflexivity.
Qed.

(** The five extractions behind [bootstrap_values]. *)
Lemma bootstrap_values_reads (stdin : S) :
  exists s1 s2 s3 s4 w h t x y s5,
    extract_int stdin = (w, s1)
    /\ extract_int s1 = (h, s2)
    /\ extract_int s2 = (t, s3)
    /\ extract_int s3 = (x, s4)
    /\ extract_int s4 = (y, s5)
    /\ bootstrap_values stdin = ((w, h, t, x, y), s5).
Proof.
  unfold bootstrap_values.
  destruct (extract_int stdin) as [w s1] eqn:Hw.
  destruct (extract_int s1) as [h s2] eqn:Hh.
  destruct (extract_int s2) as [t s3] eqn:Ht.
  destruct (extract_int s3) as [x s4] eqn:Hx.
  destruct (extract_int s4) as [y s5] eqn:Hy.
  exists s1, s2, s3, s4, w, h, t, x, y, s5. repeat split; assumption.
Qed.

End BootstrapCases.

(** The text of the "not running" exception is not the text of any
    argument check, whatever the argument. *)
Lemma check_message_not_running (label : String) (a : Z) :
  In label check_labels ->
  runtime_error (formattedMessage a label) <> not_running.
Proof.
  unfold check_labels, not_running, formattedMessage.
  intros [<- | [<- | [<- | [<- | [<- | []]]]]]; cbn; discriminate.
Qed.

(** X1.  The two range checks agree: every position inside a building that
    was constructed without error is accepted by [Batman]'s constructor,
    and the player then stands at that position. *)
Theorem X1_position_inside_building_accepted
  (width height x y : Z) (b : Building) :
  new_Building width height = ok b ->
  0 <= x < GetWidth b -> 0 <= y < GetHeight b ->
  new_Batman x y = ok (mkBatman (mkPoint x y))
  /\ GetPosition (mkBatman (mkPoint x y)) = mkPoint x y.
Proof.
  unfold new_Building, new_Batman, result_bind, CheckArgument.
  unfold MIN_WIDTH, MAX_WIDTH, MIN_HEIGHT, MAX_HEIGHT.
  destruct (Z.geb_spec width 1), (Z.leb_spec width 10000),
           (Z.geb_spec height 5), (Z.leb_spec height 10000);
    cbn; try discriminate.
  intros [= <-]. cbn. intros Hx Hy.
  destruct (Z.geb_spec x 0), (Z.ltb_spec x 10000),
           (Z.geb_spec y 0), (Z.ltb_spec y 10000);
    cbn; try lia.
  split; reflexivity.
Qed.

Lemma X1_position_inside_building_accepted_witness :
  new_Batman 9 4 = ok (mkBatman (mkPoint 9 4))
  /\ GetPosition (mkBatman (mkPoint 9 4)) = mkPoint 9 4.
Proof.
  refine (X1_position_inside_building_accepted 10 5 9 4 (mkBuilding 10 5)
            eq_refl _ _); cbn; lia.
Defined.

(** X2.  The bootstrap checks run in the order width, height, turn budget,
    x, y, and the first one that fails decides the exception.  Both
    dimensions are read before either is checked, and both coordinates
    before either is checked: a bad building leaves the stream after the
    second integer, a bad budget after the third, a bad start after the
    fifth.  When all five pass, the game holds exactly the values read. *)
Theorem X2_bootstrap_first_failure
  {S : Type} `{IStream S} (stdin s1 s2 s3 s4 s5 : S) (w h t x y : Z) :
  extract_int stdin = (w, s1) ->
  extract_int s1 = (h, s2) ->
  extract_int s2 = (t, s3) ->
  extract_int s3 = (x, s4) ->
  extract_int s4 = (y, s5) ->
  new_Game stdin
  = if negb (width_ok w)
    then (throw (runtime_error (formattedMessage w "Building width")), s2)
    else if negb (height_ok h)
    then (throw (runtime_error (formattedMessage h "Building height")), s2)
    else if negb (turns_ok t)
    then (throw (runtime_error (formattedMessage t "Turns left")), s3)
    else if negb (x0_ok x)
    then (throw (runtime_error (formattedMessage x "Batman x0")), s5)
    else if negb (y0_ok y)
    then (throw (runtime_error (formattedMessage y "Batman y0")), s5)
    else (ok (mkGame (mkBuilding w h) t (mkBatman (mkPoint x y))
                     CreateStrategy), s5).
Proof.
  intros Hw Hh Ht Hx Hy.
  unfold new_Game, bind.
  assert (Hbuilding : ReadBuilding stdin = (new_Building w h, s2)).
  { unfold ReadBuilding, bind, Read_int, lift. now rewrite Hw, Hh. }
  assert (Hturns : ReadTurns s2
                   = (CheckArgument t turns_ok "Turns left", s3)).
  { unfold ReadTurns, bind, Read_int, lift. now rewrite Ht. }
  assert (Hbatman : ReadBatman s3 = (new_Batman x y, s5)).
  { unfold ReadBatman, bind, Read_int, lift. now rewrite Hx, Hy. }
  rewrite Hbuilding.
  unfold new_Building, result_bind, CheckArgument at 1 2.
  fold (width_ok w). fold (height_ok h).
  destruct (width_ok w); cbn [negb]; [|reflexivity].
  destruct (height_ok h); cbn [negb]; [|reflexivity].
  rewrite Hturns. unfold CheckArgument at 1.
  destruct (turns_ok t); cbn [negb]; [|reflexivity].
  rewrite Hbatman.
  unfold new_Batman, result_bind, CheckArgument.
  fold (x0_ok x). fold (y0_ok y).
  destruct (x0_ok x); cbn [negb]; [|reflexivity].
  destruct (y0_ok y); cbn [negb]; reflexivity.
Qed.

Lemma X2_bootstrap_first_failure_witness :
  new_Game (stream_of bad_building_text)
  = (throw (runtime_error "Building width: argument '0' is incorrect"),
     snd (extract_int (snd (extract_int (stream_of bad_building_text))))).
Proof.
  exact (X2_bootstrap_first_failure
           (stream_of bad_building_text) _ _ _ _ _ 0 3 50 1 1
           eq_refl eq_refl eq_refl eq_refl eq_refl).
Defined.

(** X3.  [main] ends with status 0 exactly when the five integers of the
    bootstrap pass their checks.  Otherwise it ends in the exception of an
    argument check, having written nothing; the "not running" exception of
    [BeforeTurn] never leaves [main], because the loop requests a turn
    only while the game is running. *)
Theorem X3_main_outcome {S : Type} `{IStream S} (stdin : S) :
  match fst (main stdin) with
  | inr status =>
      status = 0 /\ bootstrap_ok (fst (bootstrap_values stdin)) = true
  | inl e =>
      bootstrap_ok (fst (bootstrap_values stdin)) = false
      /\ snd (snd (main stdin)) = ""
      /\ e <> not_running
      /\ exists label arg,
           In label check_labels
           /\ e = runtime_error (formattedMessage arg label)
  end.
Proof.
  destruct (bootstrap_values_reads stdin)
    as (s1 & s2 & s3 & s4 & w & h & t & x & y & s5
        & Hw & Hh & Ht & Hx & Hy & Hboot).
  pose proof (new_Game_cases stdin s1 s2 s3 s4 s5 w h t x y Hw Hh Ht Hx Hy)
    as Hnew.
  rewrite Hboot. cbn [fst bootstrap_ok].
  unfold main. rewrite Hnew.
  assert (Hfail : forall (label : String) (arg : Z) (s : S),
             In label check_labels ->
             snd (snd (throw (runtime_error (formattedMessage arg label)) :
                         result Z, (s, ""))) = ""
             /\ runtime_error (formattedMessage arg label) <> not_running
             /\ exists label' arg',
                  In label' check_labels
                  /\ runtime_error (formattedMessage arg label)
                     = runtime_error (formattedMessage arg' label')).
  { intros label arg s Hin. split; [reflexivity|]. split.
    - now apply check_message_not_running.
    - eauto. }
  destruct (width_ok w); cbn [negb andb];
    [|split; [reflexivity | apply (Hfail _ _ s2); cbn; auto]].
  destruct (height_ok h); cbn [negb andb];
    [|split; [reflexivity | apply (Hfail _ _ s2); cbn; auto]].
  destruct (turns_ok t); cbn [negb andb];
    [|split; [reflexivity | apply (Hfail _ _ s3); cbn; auto]].
  destruct (x0_ok x); cbn [negb andb];
    [|split; [reflexivity | apply (Hfail _ _ s5); cbn; auto 6]].
  destruct (y0_ok y); cbn [negb andb];
    [|split; [reflexivity | apply (Hfail _ _ s5); cbn; auto 7]].
  match goal with
  | |- context [game_loop ?p] =>
      destruct (game_loop_no_throw p) as (q & ->)
  end.
  cbn. split; reflexivity.
Qed.

Lemma print_probes_app (ps qs : list Point) :
  print_probes (ps ++ qs)%list = print_probes ps ++ print_probes qs.
Proof.
  induction ps as [|pt ps IH]; cbn [print_probes app]; [reflexivity|].
  rewrite IH. symmetry. apply append_assoc.
Qed.

Lemma repeat_snoc {A : Type} (a : A) (n : nat) :
  repeat a (Datatypes.S n) = (repeat a n ++ [a])%list.
Proof.
  induction n as [|n IH]; [reflexivity|].
  cbn [repeat app] in *. now rewrite <- IH.
Qed.

(** X4.  From a game whose counter is a non-negative [int] the loop ends
    without an exception after exactly [TurnsLeft] turns: the counter is
    0, one feedback word has been taken from the input and one line added
    to the output per turn, and building, player and strategy are as they
    were. *)
Theorem X4_loop_final_state {S : Type} `{IStream S} (p : Process) :
  0 <= TurnsLeft (game p) <= INT_MAX ->
  game_loop p
  = (ok tt,
     mkProcess
       (mkGame (House (game p)) 0 (Player (game p)) (Strategy (game p)))
       (skip_words (Z.to_nat (TurnsLeft (game p))) (cin p))
       (cout p
        ++ print_probes
             (repeat (mkPoint 0 0) (Z.to_nat (TurnsLeft (game p)))))).
Proof.
  remember (Z.to_nat (TurnsLeft (game p))) as n eqn:Hn.
  revert p Hn. induction n as [|n IH]; intros p Hn Hrange.
  - assert (Hzero : TurnsLeft (game p) = 0) by lia.
    rewrite game_loop_eq.
    assert (Hrun : IsRunning (game p) = false)
      by (apply IsRunning_false; lia).
    rewrite Hrun. destruct p as [[house turns player strategy] input output].
    cbn in *. subst turns. rewrite append_nil_r. reflexivity.
  - assert (Hrun : IsRunning (game p) = true)
      by (apply IsRunning_true; lia).
    rewrite game_loop_eq, Hrun, NextTurn_eq by assumption.
    assert (Hwrap : int_wrap (TurnsLeft (game p) - 1)
                    = TurnsLeft (game p) - 1).
    { apply int_wrap_id. unfold int_range, INT_MIN, INT_MAX in *. lia. }
    rewrite Hwrap. rewrite IH; cbn [game TurnsLeft]; try lia.
    cbn [House Player Strategy cin cout game].
    unfold skip_words. rewrite Nat.iter_succ_r.
    cbn [repeat print_probes]. rewrite append_assoc. reflexivity.
Qed.

Lemma X4_loop_final_state_witness :
  game_loop sample_start
  = (ok tt,
     mkProcess
       (mkGame (mkBuilding 10 5) 0 (mkBatman (mkPoint 0 0)) CreateStrategy)
       (skip_words 20 (cin sample_start))
       ("" ++ print_probes (repeat (mkPoint 0 0) 20))).
Proof.
  refine (X4_loop_final_state sample_start _).
  unfold INT_MAX. cbn. lia.
Defined.

(** X5.  After [k] requests of a turn on a game whose counter [t] is a
    non-negative [int], the counter is max(0, t - k): it never goes below
    0.  Only the first min(k, t) requests are served, each taking one word
    and writing one line; the later ones are refused and change nothing.
    Building and player are never touched. *)
Theorem X5_counter_after_requests
  {S : Type} `{IStream S} (k : nat) (p : Process) :
  0 <= TurnsLeft (game p) <= INT_MAX ->
  let served := Nat.min k (Z.to_nat (TurnsLeft (game p))) in
  TurnsLeft (game (after_turns k p))
  = Z.max 0 (TurnsLeft (game p) - Z.of_nat k)
  /\ cin (after_turns k p) = skip_words served (cin p)
  /\ cout (after_turns k p)
     = cout p ++ print_probes (repeat (mkPoint 0 0) served)
  /\ House (game (after_turns k p)) = House (game p)
  /\ Player (game (after_turns k p)) = Player (game p).
Proof.
  intros Hrange. cbn zeta.
  induction k as [|k IH].
  - cbn. rewrite append_nil_r. repeat split. lia.
  - destruct IH as (Hturns & Hin & Hout & Hhouse & Hplayer).
    unfold after_turns in *. rewrite !Nat.iter_succ.
    set (q := Nat.iter k after_turn p) in *.
    destruct (Z.lt_ge_cases (Z.of_nat k) (TurnsLeft (game p))) as [Hlt | Hge].
    + assert (Hrun : IsRunning (game q) = true)
        by (apply IsRunning_true; lia).
      rewrite after_turn_running by assumption.
      cbn [game TurnsLeft cin cout House Player].
      rewrite Hturns, Hin, Hout, Hhouse, Hplayer.
      rewrite int_wrap_id
        by (unfold int_range, INT_MIN, INT_MAX in *; lia).
      replace (Nat.min (Datatypes.S k) (Z.to_nat (TurnsLeft (game p))))
        with (Datatypes.S k) by lia.
      replace (Nat.min k (Z.to_nat (TurnsLeft (game p)))) with k by lia.
      repeat split.
      * lia.
      * rewrite repeat_snoc, print_probes_app, append_assoc.
        cbn [print_probes]. now rewrite append_nil_r.
    + assert (Hrun : IsRunning (game q) = false)
        by (apply IsRunning_false; lia).
      unfold after_turn at 1 2 3 4 5.
      rewrite NextTurn_stopped by assumption. cbn [snd].
      rewrite Hturns, Hin, Hout, Hhouse, Hplayer.
      replace (Nat.min (Datatypes.S k) (Z.to_nat (TurnsLeft (game p))))
        with (Z.to_nat (TurnsLeft (game p))) by lia.
      replace (Nat.min k (Z.to_nat (TurnsLeft (game p))))
        with (Z.to_nat (TurnsLeft (game p))) by lia.
      repeat split. lia.
Qed.

Lemma X5_counter_after_requests_witness :
  TurnsLeft (game (after_turns 25 sample_start)) = Z.max 0 (20 - 25)
  /\ cin (after_turns 25 sample_start) = skip_words 20 (cin sample_start)
  /\ cout (after_turns 25 sample_start)
     = "" ++ print_probes (repeat (mkPoint 0 0) 20)
  /\ House (game (after_turns 25 sample_start)) = mkBuilding 10 5
  /\ Player (game (after_turns 25 sample_start)) = mkBatman (mkPoint 0 0).
Proof.
  refine (X5_counter_after_requests 25 sample_start _).
  unfold INT_MAX. cbn. lia.
Defined.

(** ** Texts written for integers *)

Lemma uint_digits (u : Decimal.uint) :
  all_chars isdigit (NilEmpty.string_of_uint u) = true.
Proof.
  induction u; cbn [NilEmpty.string_of_uint all_chars];
    try rewrite IHu; reflexivity.
Qed.

Lemma all_chars_weaken (f g : ascii -> bool) (s : String) :
  (forall c, f c = true -> g c = true) ->
  all_chars f s = true -> all_chars g s = true.
Proof.
  intros Hfg. induction s as [|c s IH]; cbn; [reflexivity|].
  intros [Hc Hs]%andb_true_iff. rewrite (Hfg c Hc), (IH Hs). reflexivity.
Qed.

(** An inserted [int] consists of digits and possibly a minus sign. *)
Lemma insert_numeral_chars (z : Z) :
  all_chars is_numeral_char (insert z) = true.
Proof.
  assert (Hu : forall u, all_chars is_numeral_char
                           (NilZero.string_of_uint u) = true).
  { intros u.
    assert (Hd : all_chars is_numeral_char (NilEmpty.string_of_uint u) = true).
    { apply (all_chars_weaken isdigit); [|apply uint_digits].
      intros c Hc. unfold is_numeral_char. now rewrite Hc. }
    destruct u; first [exact Hd | reflexivity]. }
  unfold insert, Insertable_int.
  destruct (Z.to_int z) as [u|u]; cbn [NilZero.string_of_int].
  - apply Hu.
  - cbn [all_chars]. rewrite Hu. reflexivity.
Qed.

(** Distinct integers are written differently. *)
Lemma insert_inj (a b : Z) : insert a = insert b -> a = b.
Proof.
  unfold insert, Insertable_int. intros Heq.
  assert (Hnonnil : forall z, Z.to_int z <> Decimal.Pos Decimal.Nil
                              /\ Z.to_int z <> Decimal.Neg Decimal.Nil).
  { intros [|p|p]; cbn; split; try discriminate;
      intros [= Hp]; now apply DecimalPos.Unsigned.to_uint_nonnil in Hp. }
  apply DecimalZ.to_int_inj.
  assert (Hsome : Some (Z.to_int a) = Some (Z.to_int b)).
  { rewrite <- (NilZero.isi (Z.to_int a)) by apply Hnonnil.
    rewrite <- (NilZero.isi (Z.to_int b)) by apply Hnonnil.
    now rewrite Heq. }
  now injection Hsome.
Qed.

(** A text is cut in only one way at the first occurrence of a character
    that its head cannot contain. *)
Lemma split_unique (f : ascii -> bool) (c : ascii) (a b r r' : String) :
  f c = false ->
  all_chars f a = true -> all_chars f b = true ->
  a ++ String.String c r = b ++ String.String c r' ->
  a = b /\ r = r'.
Proof.
  intros Hc. revert b.
  induction a as [|x a IH]; intros [|y b]; cbn; intros Ha Hb Heq.
  - injection Heq as ->. auto.
  - injection Heq as <- _. apply andb_true_iff in Hb as [Hy _]. congruence.
  - injection Heq as -> _. apply andb_true_iff in Ha as [Hx _]. congruence.
  - injection Heq as -> Heq.
    apply andb_true_iff in Ha as [_ Ha]. apply andb_true_iff in Hb as [_ Hb].
    destruct (IH b Ha Hb Heq) as [-> ->]. auto.
Qed.

Lemma print_probe_cut (pt : Point) (rest : String) :
  print_probe pt ++ rest
  = insert (X pt)
    ++ String.String " "%char
         (insert (Y pt) ++ String.String (ascii_of_nat 10) rest).
Proof.
  unfold print_probe, endl. rewrite !append_assoc. reflexivity.
Qed.

(** X6.  The text of an argument-check exception tells which of the five
    checks failed and on which value: two such texts are equal only for
    the same label and the same argument. *)
Theorem X6_check_message_identifies_failure (l1 l2 : String) (a b : Z) :
  In l1 check_labels -> In l2 check_labels ->
  formattedMessage a l1 = formattedMessage b l2 ->
  l1 = l2 /\ a = b.
Proof.
  assert (Htail : insert a ++ "' is incorrect" = insert b ++ "' is incorrect"
                  -> a = b).
  { intros Heq. apply insert_inj.
    apply (split_unique is_numeral_char "'"%char _ _
             " is incorrect" " is incorrect");
      [reflexivity | apply insert_numeral_chars
       | apply insert_numeral_chars | exact Heq]. }
  unfold check_labels, formattedMessage.
  intros [<- | [<- | [<- | [<- | [<- | []]]]]]
         [<- | [<- | [<- | [<- | [<- | []]]]]];
    cbn [is_empty negb append]; intros Heq;
    try discriminate Heq;
    (split; [reflexivity|]);
    repeat match goal with
           | E : String.String _ _ = String.String _ _ |- _ =>
               injection E as E
           end;
    exact (Htail Heq).
Qed.

Lemma X6_check_message_identifies_failure_witness :
  "Turns left" = "Turns left" /\ 101 = 101.
Proof.
  refine (X6_check_message_identifies_failure
            "Turns left" "Turns left" 101 101 _ _ eq_refl);
    cbn; auto.
Defined.

(** X7.  The output is unambiguous: two sequences of jumps that are
    written as the same text are the same sequence.  Each line can be cut
    at its blank and at its line feed in one way only, and the two numbers
    read back as the coordinates. *)
Theorem X7_output_determines_jumps (ps qs : list Point) :
  print_probes ps = print_probes qs -> ps = qs.
Proof.
  revert qs. induction ps as [|p ps IH]; intros [|q qs];
    cbn [print_probes]; rewrite ?print_probe_cut; intros Heq.
  - reflexivity.
  - destruct (insert (X q)); discriminate.
  - destruct (insert (X p)); discriminate.
  - apply (split_unique is_numeral_char) in Heq as [Hx Heq];
      try reflexivity; try apply insert_numeral_chars.
    apply (split_unique is_numeral_char) in Heq as [Hy Heq];
      try reflexivity; try apply insert_numeral_chars.
    apply insert_inj in Hx. apply insert_inj in Hy.
    destruct p as [px py], q as [qx qy]. cbn in Hx, Hy. subst.
    f_equal. now apply IH.
Qed.

Lemma X7_output_determines_jumps_witness :
  [mkPoint 3 4; mkPoint (-1) 0] = [mkPoint 3 4; mkPoint (-1) 0].
Proof.
  exact (X7_output_determines_jumps
           [mkPoint 3 4; mkPoint (-1) 0] [mkPoint 3 4; mkPoint (-1) 0]
           eq_refl).
Defined.

(** X8.  Nothing but the five integers of the bootstrap reaches the result:
    two inputs, even on different kinds of stream, that yield the same
    five integers end [main] in the same way (the same status or the same
    exception) and with the same output, whatever feedback words follow
    and however many of them there are. *)
Theorem X8_feedback_never_matters
  {S S' : Type} `{IStream S} `{IStream S'} (stdin : S) (stdin' : S') :
  fst (bootstrap_values stdin) = fst (bootstrap_values stdin') ->
  fst (main stdin) = fst (main stdin')
  /\ snd (snd (main stdin)) = snd (snd (main stdin')).
Proof.
  destruct (bootstrap_values_reads stdin)
    as (s1 & s2 & s3 & s4 & w & h & t & x & y & s5
        & Hw & Hh & Ht & Hx & Hy & Hboot).
  destruct (bootstrap_values_reads stdin')
    as (s1' & s2' & s3' & s4' & w' & h' & t' & x' & y' & s5'
        & Hw' & Hh' & Ht' & Hx' & Hy' & Hboot').
  rewrite Hboot, Hboot'. cbn [fst]. intros [= <- <- <- <- <-].
  pose proof (new_Game_cases stdin s1 s2 s3 s4 s5 w h t x y
                Hw Hh Ht Hx Hy) as Hnew.
  pose proof (new_Game_cases stdin' s1' s2' s3' s4' s5' w h t x y
                Hw' Hh' Ht' Hx' Hy') as Hnew'.
  destruct (width_ok w); cbn [negb] in Hnew, Hnew';
    [|unfold main; rewrite Hnew, Hnew'; split; reflexivity].
  destruct (height_ok h); cbn [negb] in Hnew, Hnew';
    [|unfold main; rewrite Hnew, Hnew'; split; reflexivity].
  destruct (turns_ok t) eqn:Hturns; cbn [negb] in Hnew, Hnew';
    [|unfold main; rewrite Hnew, Hnew'; split; reflexivity].
  destruct (x0_ok x); cbn [negb] in Hnew, Hnew';
    [|unfold main; rewrite Hnew, Hnew'; split; reflexivity].
  destruct (y0_ok y); cbn [negb] in Hnew, Hnew';
    [|unfold main; rewrite Hnew, Hnew'; split; reflexivity].
  assert (Hmax : t <= INT_MAX).
  { unfold turns_ok, MAX_INPUT_TURNS in Hturns.
    apply andb_true_iff in Hturns as [_ Hle]. apply Z.leb_le in Hle.
    unfold INT_MAX. lia. }
  destruct (main_after_bootstrap stdin s5 _ Hnew Hmax) as (rest & ->).
  destruct (main_after_bootstrap stdin' s5' _ Hnew' Hmax) as (rest' & ->).
  split; reflexivity.
Qed.

Lemma X8_feedback_never_matters_witness :
  fst (main (stream_of sample_text)) = fst (main (stream_of above_text))
  /\ snd (snd (main (stream_of sample_text)))
     = snd (snd (main (stream_of above_text))).
Proof.
  exact (X8_feedback_never_matters
           (stream_of sample_text) (stream_of above_text) eq_refl).
Defined.
